(** * The Alipay payment method of composite-checkout

    A shallow embedding of [createAlipayPaymentMethodStore], [isFormValid],
    the click handler of [AlipayPayButton] and [ButtonContents], followed by
    the properties of the form store and of the submission flow. *)

From stdpp Require Import base strings gmap list.

Open Scope string_scope.

(** ** JavaScript values

    The store state, the actions' payloads, the processor's response and the
    rejection reason are untyped in the source, so they are modelled as
    JavaScript values. Numbers are restricted to the integers (no fraction, no
    NaN): the only numbers this module computes are string lengths. *)

#[warnings="-register-all"]
Inductive JsValue : Type :=
  | JUndefined
  | JNull
  | JBool (b : bool)
  | JNumber (n : Z)
  | JString (s : string)
  | JObject (fields : gmap string JsValue).

(** An object is a finite map from property names to values. *)
Abbreviation JsObject := (gmap string JsValue).

(** ToBoolean: what [!v], [v || w] and [if ( v )] test. *)
Definition truthy (v : JsValue) : bool :=
  match v with
  | JUndefined | JNull => false
  | JBool b => b
  | JNumber n => negb (n =? 0)%Z
  | JString s => negb (String.length s =? 0)%nat
  | JObject _ => true
  end.

(** [a || b] *)
Definition js_or (a b : JsValue) : JsValue := if truthy a then a else b.

(** [o.k] on an object held in a variable: a missing property reads as
    [undefined]. *)
Definition field (o : JsObject) (k : string) : JsValue := default JUndefined (o !! k).

(** A completion is a normal result or a thrown value. *)
Inductive Completion (A : Type) : Type :=
  | Normal (a : A)
  | Throw (e : JsValue).
Arguments Normal {A} a.
Arguments Throw {A} e.

(** The TypeError raised by a property read on [undefined] or [null]; its
    message text is engine specific and left out. *)
Definition typeError : JsValue := JObject {[ "name" := JString "TypeError" ]}.

(** [undefined] and [null] have no properties. *)
Definition isNullish (v : JsValue) : bool :=
  match v with
  | JUndefined | JNull => true
  | _ => false
  end.

(** The value of property [k] of a value that is neither [undefined] nor
    [null], for the property names read in this module ([value],
    [isTouched], [length], [redirect_url], [message]), none of which is an
    index or comes from a prototype: a string has [length] only, a boolean or
    a number has none of them. The length of a string counts its bytes where
    JavaScript counts UTF-16 code units; the two are zero together. *)
Definition readProp (v : JsValue) (k : string) : JsValue :=
  match v with
  | JObject o => field o k
  | JString s =>
      if String.eqb k "length" then JNumber (Z.of_nat (String.length s)) else JUndefined
  | _ => JUndefined
  end.

(** [v.k]: reading a property of [undefined] or [null] throws. *)
Definition getProp (v : JsValue) (k : string) : Completion JsValue :=
  if isNullish v then Throw typeError else Normal (readProp v k).

(** [v?.k]: [undefined] when [v] is [undefined] or [null]. *)
Definition optChain (v : JsValue) (k : string) : JsValue :=
  if isNullish v then JUndefined else readProp v k.

#[global] Instance Completion_ret : MRet Completion := λ A a, Normal a.
#[global] Instance Completion_bind : MBind Completion := λ A B f c,
  match c with
  | Normal a => f a
  | Throw e => Throw e
  end.

(** ** The form store: [createAlipayPaymentMethodStore] *)

Record Action : Type := { type : string; payload : JsValue }.

(** [actions.changeCustomerName( payload )] *)
Definition changeCustomerName (payload : JsValue) : Action :=
  {| type := "CUSTOMER_NAME_SET"; payload := payload |}.

(** The reducer's default parameter,
    [{ customerName: { value: '', isTouched: false } }]. *)
Definition defaultState : JsObject :=
  {[ "customerName" := JObject {[ "value" := JString ""; "isTouched" := JBool false ]} ]}.

(** [reducer( state = defaultState, action )]; [None] is a call with
    [undefined] for the state, which the default parameter replaces. *)
Definition reducer (state : option JsObject) (action : Action) : JsObject :=
  let state := default defaultState state in
  if String.eqb (type action) "CUSTOMER_NAME_SET"
  then <["customerName" :=
           JObject {[ "value" := payload action; "isTouched" := JBool true ]}]> state
  else state.

(** [selectors.getCustomerName( state )]: [state.customerName || ''] *)
Definition getCustomerName (state : JsObject) : JsValue :=
  js_or (field state "customerName") (JString "").

(** Modelled from the spec: the store that [registerStore] of
    [lib/registry] returns, a "generic action-dispatch mechanism": it holds
    the state the reducer computed from [undefined] at registration,
    [getState] reads it and [dispatch] replaces it by the reducer's result.
    The log of dispatched actions tells what was dispatched, and in which
    order. *)
Record Store : Type := { state : JsObject; dispatched : list Action }.

(** [createAlipayPaymentMethodStore()]: the store as registered, before any
    dispatch. Its state is what the reducer returns for the registry's
    initialization action, whose type is none of the component's. *)
Definition createAlipayPaymentMethodStore : Store :=
  {| state := reducer None {| type := "@@INIT"; payload := JUndefined |};
     dispatched := [] |}.

Definition getState (store : Store) : JsObject := state store.

Definition dispatch (action : Action) (store : Store) : Store :=
  {| state := reducer (Some (state store)) action;
     dispatched := dispatched store ++ [action] |}.

(** ** Validation: [isFormValid( store )]

    The result is the completion of the call together with the store it
    leaves behind. *)
Definition isFormValid (store : Store) : Completion bool * Store :=
  let customerName := getCustomerName (getState store) in
  (* customerName?.value.length *)
  let len :=
    if isNullish customerName then Normal JUndefined
    else value ← getProp customerName "value"; getProp value "length" in
  match len with
  | Throw e => (Throw e, store)
  | Normal n =>
      if negb (truthy n)
      then (Normal false, dispatch (changeCustomerName (JString "")) store)
      else (Normal true, store)
  end.

(** ** The checkout's collaborators *)

(** Modelled from the spec: the line items of [useLineItems], where
    "[total.amount.displayValue] is a pre-formatted string"; the other
    properties of a line item are not read here. *)
Record Amount : Type := { displayValue : string }.
Record LineItem : Type := { amount : Amount }.

(** Modelled from the spec: the transaction status of
    [useTransactionStatus], with the three transitions this component
    triggers. *)
Inductive TransactionStatus : Type :=
  | NotStarted
  | Pending
  | Redirecting (url : JsValue)
  | Error (message : JsValue).

(** The outcome of the promise that [submitTransaction] returns. *)
Inductive Settlement : Type :=
  | Fulfilled (stripeResponse : JsValue)
  | Rejected (error : JsValue).

(** The event that announces the redirect,
    [{ type: 'REDIRECT_TRANSACTION_BEGIN', payload: { paymentMethodId: 'alipay' } }]. *)
Definition redirectBegin : JsValue :=
  JObject {[ "type" := JString "REDIRECT_TRANSACTION_BEGIN";
             "payload" := JObject {[ "paymentMethodId" := JString "alipay" ]} ]}.

(** The message of the error branch of the [.then] callback, before
    localization. *)
Definition processingError : string :=
  "There was an error processing your payment. Please try again or contact support.".

Section AlipayPayButton.

(** The Stripe handle and its configuration are passed through unread. *)
Variables Stripe StripeConfiguration : Type.

(** [__] of [useI18n], the localization formatter. *)
Variable __ : string → string.
(** [sprintf] of [@wordpress/i18n], at one argument. *)
Variable sprintf : string → string → string.
Variable renderDisplayValueMarkdown : string → string.

(** The argument of [submitTransaction]. *)
Record SubmitArgs : Type := {
  stripe : Stripe;
  name : JsValue;
  items : list LineItem;
  total : LineItem;
  stripeConfiguration : StripeConfiguration
}.

(** The calls that leave the component, in the order they are made. *)
Inductive Effect : Type :=
  | Debug (args : list JsValue)
  | SetTransactionPending
  | OnEvent (event : JsValue)
  | SubmitTransaction (args : SubmitArgs)
  | SetTransactionError (message : JsValue)
  | SetTransactionRedirecting (url : JsValue).

Record World : Type := {
  store : Store;
  transactionStatus : TransactionStatus;
  effects : list Effect
}.

(** Statements run in a world and complete normally or throw. *)
Definition M (A : Type) : Type := World → Completion A * World.

#[local] Instance M_ret : MRet M := λ A a w, (Normal a, w).
#[local] Instance M_bind : MBind M := λ A B f m w,
  match m w with
  | (Normal a, w') => f a w'
  | (Throw e, w') => (Throw e, w')
  end.

Definition liftC {A} (c : Completion A) : M A := λ w, (c, w).

Definition onStore {A} (f : Store → Completion A * Store) : M A := λ w,
  let '(c, s) := f (store w) in
  (c, {| store := s; transactionStatus := transactionStatus w; effects := effects w |}).

Definition emit (e : Effect) : M unit := λ w,
  (Normal (), {| store := store w; transactionStatus := transactionStatus w;
                 effects := effects w ++ [e] |}).

Definition setStatus (t : TransactionStatus) : M unit := λ w,
  (Normal (), {| store := store w; transactionStatus := t; effects := effects w |}).

(** Modelled from the spec: the setters of [useTransactionStatus] move the
    transaction status to pending, to redirecting with a URL and to error
    with a message; [onEvent] of [useEvents] and [debug] return nothing. Each
    call is recorded in the trace. *)
Definition debug (args : list JsValue) : M unit := emit (Debug args).
Definition setTransactionPending : M unit :=
  emit SetTransactionPending;; setStatus Pending.
Definition setTransactionError (message : JsValue) : M unit :=
  emit (SetTransactionError message);; setStatus (Error message).
Definition setTransactionRedirecting (url : JsValue) : M unit :=
  emit (SetTransactionRedirecting url);; setStatus (Redirecting url).
Definition onEvent (event : JsValue) : M unit := emit (OnEvent event).

(** What one render of [AlipayPayButton] closes over: its props and the
    values its hooks returned at that render. [customerName] is the
    [useSelect] snapshot of [getCustomerName]. *)
Record Render : Type := {
  props_stripe : Stripe;
  props_stripeConfiguration : StripeConfiguration;
  hook_items : list LineItem;
  hook_total : LineItem;
  hook_formStatus : string;
  hook_customerName : JsValue
}.

(** [submitTransaction( args )]: the call is made and its promise is
    pending; the processor settles it later, outside this component. *)
Definition submitTransaction (args : SubmitArgs) : M unit :=
  emit (SubmitTransaction args).

(** The [.then] callback. *)
Definition onFulfilled (stripeResponse : JsValue) : M unit :=
  if negb (truthy (optChain stripeResponse "redirect_url"))
  then
    setTransactionError (JString (__ processingError))
  else
    url ← liftC (getProp stripeResponse "redirect_url");
    debug [JString "alipay transaction requires redirect"; url];;
    setTransactionRedirecting url.

(** The [.catch] callback. *)
Definition onRejected (error : JsValue) : M unit :=
  message ← liftC (getProp error "message");
  setTransactionError message.

(** [promise.then( onFulfilled ).catch( onRejected )] once the promise has
    settled: the catch callback also receives what the then callback throws. *)
Definition settle (outcome : Settlement) : M unit := λ w,
  match outcome with
  | Fulfilled stripeResponse =>
      match onFulfilled stripeResponse w with
      | (Normal tt, w') => (Normal tt, w')
      | (Throw e, w') => onRejected e w'
      end
  | Rejected error => onRejected error w
  end.

(** The [onClick] handler of the button; it returns [true] when it has
    called the processor, whose promise is then pending. *)
Definition onClick (r : Render) : M bool :=
  valid ← onStore isFormValid;
  if valid : bool
  then
    debug [JString "submitting alipay payment"];;
    setTransactionPending;;
    onEvent redirectBegin;;
    submitTransaction {| stripe := props_stripe r;
                         name := optChain (hook_customerName r) "value";
                         items := hook_items r;
                         total := hook_total r;
                         stripeConfiguration := props_stripeConfiguration r |};;
    mret true
  else mret false.

(** One submission attempt: the click, then the settlement of the
    processor's promise when the click has called the processor. *)
Definition submission (r : Render) (outcome : Settlement) : M unit :=
  called ← onClick r;
  if called : bool then settle outcome else mret ().

(** [ButtonContents( { formStatus, total } )] *)
Definition ButtonContents (formStatus : string) (total : LineItem) : string :=
  if String.eqb formStatus "submitting" then __ "Processing…"
  else if String.eqb formStatus "ready"
  then sprintf (__ "Pay %s") (renderDisplayValueMarkdown (displayValue (amount total)))
  else __ "Please wait…".

End AlipayPayButton.

Arguments stripe {Stripe StripeConfiguration} _.
Arguments name {Stripe StripeConfiguration} _.
Arguments items {Stripe StripeConfiguration} _.
Arguments total {Stripe StripeConfiguration} _.
Arguments stripeConfiguration {Stripe StripeConfiguration} _.
Arguments Debug {Stripe StripeConfiguration} args.
Arguments SetTransactionPending {Stripe StripeConfiguration}.
Arguments OnEvent {Stripe StripeConfiguration} event.
Arguments SubmitTransaction {Stripe StripeConfiguration} args.
Arguments SetTransactionError {Stripe StripeConfiguration} message.
Arguments SetTransactionRedirecting {Stripe StripeConfiguration} url.
Arguments store {Stripe StripeConfiguration} _.
Arguments transactionStatus {Stripe StripeConfiguration} _.
Arguments effects {Stripe StripeConfiguration} _.
Arguments props_stripe {Stripe StripeConfiguration} _.
Arguments props_stripeConfiguration {Stripe StripeConfiguration} _.
Arguments hook_items {Stripe StripeConfiguration} _.
Arguments hook_total {Stripe StripeConfiguration} _.
Arguments hook_formStatus {Stripe StripeConfiguration} _.
Arguments hook_customerName {Stripe StripeConfiguration} _.
Arguments onFulfilled {Stripe StripeConfiguration} __ stripeResponse _.
Arguments onRejected {Stripe StripeConfiguration} error _.
Arguments settle {Stripe StripeConfiguration} __ outcome _.
Arguments onClick {Stripe StripeConfiguration} r _.
Arguments submission {Stripe StripeConfiguration} __ r outcome _.

(** [customerName?.isTouched], as [AlipayFields] reads it for its error
    state. *)
Definition isTouched (state : JsObject) : JsValue :=
  optChain (getCustomerName state) "isTouched".

(** [customerName?.value], as [AlipayFields] and [AlipaySummary] read it. *)
Definition customerNameValue (state : JsObject) : JsValue :=
  optChain (getCustomerName state) "value".

(** Dispatching a sequence of actions, first to last. *)
Definition dispatchAll (actions : list Action) (store : Store) : Store :=
  foldl (λ s a, dispatch a s) store actions.

(** [n] calls of [isFormValid] in a row: their completions, in order, and
    the store after the last one. *)
Fixpoint isFormValidRepeatedly (n : nat) (store : Store) : list (Completion bool) * Store :=
  match n with
  | O => ([], store)
  | S n' =>
      let '(c, store1) := isFormValid store in
      let '(cs, store2) := isFormValidRepeatedly n' store1 in
      (c :: cs, store2)
  end.

(** The form field object [{ value, isTouched }]. *)
Definition formField (value : JsValue) (touched : bool) : JsValue :=
  JObject {[ "value" := value; "isTouched" := JBool touched ]}.

(** The trimming the specification speaks of, written from its words:
    [String.prototype.trim] on the ASCII white space and line terminators
    (space, tab, line feed, vertical tab, form feed, carriage return). The
    source never calls it. *)
Definition isWhiteSpace (a : Ascii.ascii) : bool :=
  let n := Ascii.nat_of_ascii a in
  (n =? 32)%nat || ((9 <=? n)%nat && (n <=? 13)%nat).

Fixpoint spec_trimStart (s : string) : string :=
  match s with
  | EmptyString => EmptyString
  | String a s' => if isWhiteSpace a then spec_trimStart s' else s
  end.

Fixpoint spec_trimEnd (s : string) : string :=
  match s with
  | EmptyString => EmptyString
  | String a s' =>
      let t := spec_trimEnd s' in
      if isWhiteSpace a && (String.length t =? 0)%nat then EmptyString else String a t
  end.

Definition spec_trim (s : string) : string := spec_trimEnd (spec_trimStart s).

(** A store whose state holds the given form field. *)
Definition storeWith (customerName : JsValue) : Store :=
  {| state := {[ "customerName" := customerName ]}; dispatched := [] |}.

(** [sprintf] at a format with one [%s]: the argument takes the place of
    the first [%s]. *)
Fixpoint sprintf_s (format arg : string) : string :=
  match format with
  | EmptyString => EmptyString
  | String a rest =>
      match rest with
      | String b rest' =>
          if String.eqb (String a (String b EmptyString)) "%s" then arg ++ rest'
          else String a (sprintf_s rest arg)
      | EmptyString => format
      end
  end.

(** A checkout in which the user has typed "Jane Doe": the store, a render
    of the button that has seen it, and the world in which the button is
    pressed. The Stripe handle and configuration carry nothing. *)
Definition janeStore : Store :=
  dispatch (changeCustomerName (JString "Jane Doe")) createAlipayPaymentMethodStore.

Definition tenDollars : LineItem := {| amount := {| displayValue := "$10" |} |}.

Definition janeRender : Render unit unit :=
  {| props_stripe := tt;
     props_stripeConfiguration := tt;
     hook_items := [tenDollars];
     hook_total := tenDollars;
     hook_formStatus := "ready";
     hook_customerName := getCustomerName (getState janeStore) |}.

Definition janeWorld : World unit unit :=
  {| store := janeStore; transactionStatus := NotStarted; effects := [] |}.

(** The same checkout before anything was typed. *)
Definition freshRender : Render unit unit :=
  {| props_stripe := tt;
     props_stripeConfiguration := tt;
     hook_items := [tenDollars];
     hook_total := tenDollars;
     hook_formStatus := "ready";
     hook_customerName := getCustomerName (getState createAlipayPaymentMethodStore) |}.

Definition freshWorld : World unit unit :=
  {| store := createAlipayPaymentMethodStore; transactionStatus := NotStarted; effects := [] |}.

(** ** The field and the summary: [AlipayFields], [AlipaySummary] *)

(** [a ?? b] *)
Definition js_coalesce (a b : JsValue) : JsValue := if isNullish a then b else a.

(** [a && b], where evaluating [b] may throw: [a] itself when it is falsy. *)
Definition js_and (a : JsValue) (b : Completion JsValue) : Completion JsValue :=
  if truthy a then b else Normal a.

(** [n === 0] for what a [length] read returns. *)
Definition isZero (n : JsValue) : bool :=
  match n with
  | JNumber z => (z =? 0)%Z
  | _ => false
  end.

(** The props [AlipayFields] hands to its [AlipayField]. *)
Record FieldProps : Type := {
  prop_value : JsValue;
  prop_isError : JsValue;
  prop_disabled : bool
}.

(** [AlipayFields()], given what its hooks return: the form status and the
    [useSelect] snapshot of [getCustomerName]. The props are evaluated in
    the order they are written: [value], then [isError], whose
    [customerName?.value.length] may throw, then [disabled]. *)
Definition AlipayFields (formStatus : string) (customerName : JsValue) : Completion FieldProps :=
  let value := js_coalesce (optChain customerName "value") (JString "") in
  isError ← js_and (optChain customerName "isTouched")
              (if isNullish customerName then Normal (JBool false)
               else v ← getProp customerName "value";
                    len ← getProp v "length";
                    mret (JBool (isZero len)));
  mret {| prop_value := value;
          prop_isError := isError;
          prop_disabled := negb (String.eqb formStatus "ready") |}.

(** [onChange={ changeCustomerName }] with the action creator bound by
    [useDispatch]: the new text is dispatched as it is. *)
Definition onChange (newValue : JsValue) (store : Store) : Store :=
  dispatch (changeCustomerName newValue) store.

(** [AlipaySummary()]: the text of its summary line, [customerName?.value]. *)
Definition AlipaySummary (customerName : JsValue) : JsValue :=
  optChain customerName "value".

(** The calls of the processor in a trace, oldest first. *)
Definition processorCalls {Stripe StripeConfiguration : Type}
    (trace : list (Effect Stripe StripeConfiguration)) : list (SubmitArgs Stripe StripeConfiguration) :=
  omap (λ e, match e with SubmitTransaction args => Some args | _ => None end) trace.

(** The argument the click handler of a render builds for the processor. *)
Definition argsOf {Stripe StripeConfiguration : Type}
    (r : Render Stripe StripeConfiguration) : SubmitArgs Stripe StripeConfiguration :=
  {| stripe := props_stripe r;
     name := optChain (hook_customerName r) "value";
     items := hook_items r;
     total := hook_total r;
     stripeConfiguration := props_stripeConfiguration r |}.

(** The actions the form itself can dispatch: whatever their type, a
    ['CUSTOMER_NAME_SET'] among them carries a string, as the input's change
    event and [isFormValid] provide. *)
Definition fromTheForm (action : Action) : Prop :=
  type action = "CUSTOMER_NAME_SET" → ∃ s, payload action = JString s.

(** ** The navigation sidebar of the block editor: [nav-sidebar/index.tsx] *)

Module NavSidebar.

(** [interface Post]. The title is optional: the component reads it as
    [item.title?.raw]. *)
Record Title : Type := { raw : string; rendered : string }.
Record Post : Type := { id : Z; slug : string; status : string; title : option Title }.

(** A record of [getEntityRecords( 'root', 'status' )], with the three
    properties the hooks destructure: [name], [slug] and [show_in_list]. *)
Record PostStatus : Type := {
  status_name : string;
  status_slug : string;
  show_in_list : bool
}.

(** The post type object, with what the sidebar reads of it: [slug] and
    [labels.all_items]. *)
Record PostType : Type := { type_slug : string; all_items : option string }.

(** The query [useNavItems] makes for the other posts; [query_status] is its
    [status] property. *)
Record PostsQuery : Type := {
  _fields : string;
  exclude : list Z;
  orderby : string;
  per_page : nat;
  query_status : string
}.

(** What [select( 'core/editor' )] answers at one render. *)
Record EditorSelectors : Type := {
  isEditedPostNew : bool;
  getCurrentPostId : Z;
  getCurrentPostType : string;
  getEditedPostAttribute : string → string
}.

(** What [select( 'core' )] answers at one render: [getStatuses] is
    [getEntityRecords( 'root', 'status' )] and [getPosts] is
    [getEntityRecords( 'postType', ... )], both [null] until loaded. *)
Record CoreSelectors : Type := {
  getStatuses : option (list PostStatus);
  getPosts : string → PostsQuery → option (list Post);
  getPostType : string → option PostType
}.

(** The comma separated slugs of the statuses that are shown in lists. *)
Definition statusFilter (statuses : list PostStatus) : string :=
  String.concat "," (map status_slug (List.filter show_in_list statuses)).

(** The post being edited, as [useNavItems] builds it. *)
Definition currentPost (editor : EditorSelectors) : Post :=
  {| id := getCurrentPostId editor;
     slug := getEditedPostAttribute editor "slug";
     status := if isEditedPostNew editor then "draft"
               else getEditedPostAttribute editor "status";
     title := Some {| raw := getEditedPostAttribute editor "title"; rendered := "" |} |}.

(** [useNavItems()] *)
Definition useNavItems (core : CoreSelectors) (editor : EditorSelectors) : list Post :=
  match getStatuses core with
  | None => []
  | Some statuses =>
      let items :=
        default [] (getPosts core (getCurrentPostType editor)
                      {| _fields := "id,slug,status,title";
                         exclude := [getCurrentPostId editor];
                         orderby := "modified";
                         per_page := 10;
                         query_status := statusFilter statuses |}) in
      currentPost editor :: items
  end.

(** [usePostStatusLabels()]: the object built by the reduce, a map from
    slugs to names. It holds the object's own properties; a status slug is
    taken not to be the name of a member of [Object.prototype], which
    [statusLabels[ item.status ]] would find as well. *)
Definition usePostStatusLabels (core : CoreSelectors) : gmap string string :=
  foldl (λ acc st,
           if String.eqb (status_slug st) "publish" then acc
           else <[status_slug st := status_name st]> acc)
        ∅ (default [] (getStatuses core)).

(** [classNames] of the classnames package at a string and an object of
    flags: the string, then the keys whose flag is set, joined by spaces. *)
Definition classNames (base : string) (flags : list (string * bool)) : string :=
  String.concat " " (base :: map fst (List.filter snd flags)).

(** A string that may be [undefined] is falsy when it is [undefined] or
    empty. *)
Definition falsy (s : option string) : bool :=
  match s with
  | Some s => (String.length s =? 0)%nat
  | None => true
  end.

(** What [NavItem] puts in its markup: the classes of the button and of
    the title, the title text, and the slug and label lines, which are left
    out when their guard is falsy. *)
Record NavItemView : Type := {
  buttonClasses : string;
  titleClasses : string;
  titleText : string;
  slugLine : option string;
  labelLine : option string
}.

Section Components.

(** [__] of [@wordpress/i18n], with its text domain, and the two other
    functions the sidebar imports. *)
Variable __ : string → string → string.
Variable addQueryArgs : string → list (string * string) → string.
Variable applyFilters : string → string → string.

(** [NavItem( { item, selected, statusLabel } )] *)
Definition NavItem (item : Post) (selected : bool) (statusLabel : option string) : NavItemView :=
  let rawTitle := raw <$> title item in
  {| buttonClasses :=
       classNames "wpcom-block-editor-nav-sidebar__item-button" [("is-selected", selected)];
     titleClasses :=
       classNames "wpcom-block-editor-nav-sidebar__title" [("is-untitled", falsy rawTitle)];
     titleText :=
       if falsy rawTitle then __ "Untitled" "full-site-editing" else default "" rawTitle;
     slugLine := if falsy (Some (slug item)) then None else Some ("/" ++ slug item ++ "/");
     labelLine := if falsy statusLabel then None else statusLabel |}.



End Components.



End NavSidebar.

(** ** Properties of the store *)

Lemma field_insert_eq (o : JsObject) k v : field (<[k := v]> o) k = v.
Proof. unfold field. by rewrite lookup_insert_eq. Qed.

Lemma field_insert_ne (o : JsObject) k k' v : k ≠ k' → field (<[k := v]> o) k' = field o k'.
Proof. intros. unfold field. by rewrite lookup_insert_ne. Qed.

Lemma formField_value v b : optChain (formField v b) "value" = v.
Proof. unfold formField, optChain, readProp, field. simpl. by rewrite lookup_insert_eq. Qed.

Lemma formField_isTouched v b : optChain (formField v b) "isTouched" = JBool b.
Proof.
  unfold formField, optChain, readProp, field. simpl.
  rewrite lookup_insert_ne by done. by rewrite lookup_singleton_eq.
Qed.

Lemma reducer_set (state : JsObject) (p : JsValue) :
  reducer (Some state) (changeCustomerName p) = <["customerName" := formField p true]> state.
Proof. reflexivity. Qed.

Lemma getCustomerName_set (state : JsObject) (p : JsValue) :
  getCustomerName (reducer (Some state) (changeCustomerName p)) = formField p true.
Proof.
  rewrite reducer_set. unfold getCustomerName. by rewrite field_insert_eq.
Qed.

Lemma reducer_other (state : JsObject) (action : Action) :
  type action ≠ "CUSTOMER_NAME_SET" → reducer (Some state) action = state.
Proof.
  intros Hne. unfold reducer. simpl.
  destruct (String.eqb_spec (type action) "CUSTOMER_NAME_SET"); [done | reflexivity].
Qed.

Lemma reducer_cases (state : JsObject) (action : Action) :
  reducer (Some state) action = state
  ∨ reducer (Some state) action = <["customerName" := formField (payload action) true]> state.
Proof.
  unfold reducer. simpl. destruct (String.eqb _ _); [by right | by left].
Qed.

Lemma isTouched_step (state : JsObject) (action : Action) :
  isTouched state = JBool true →
  isTouched (reducer (Some state) action) = JBool true.
Proof.
  intros Ht. destruct (reducer_cases state action) as [-> | ->]; [done |].
  unfold isTouched, getCustomerName. rewrite field_insert_eq.
  apply formField_isTouched.
Qed.

Lemma dispatchAll_app (xs ys : list Action) (store : Store) :
  dispatchAll (xs ++ ys) store = dispatchAll ys (dispatchAll xs store).
Proof. apply foldl_app. Qed.

Lemma isTouched_dispatchAll (actions : list Action) (store : Store) :
  isTouched (state store) = JBool true →
  isTouched (state (dispatchAll actions store)) = JBool true.
Proof.
  revert store. induction actions as [| a actions IH]; intros store Ht; [done |].
  simpl. apply IH. simpl. by apply isTouched_step.
Qed.

Lemma getCustomerName_object (state : JsObject) (o : JsObject) :
  state !! "customerName" = Some (JObject o) → getCustomerName state = JObject o.
Proof. intros H. unfold getCustomerName, field. by rewrite H. Qed.

Lemma getCustomerName_missing (state : JsObject) :
  state !! "customerName" = None → getCustomerName state = JString "".
Proof. intros H. unfold getCustomerName, field. by rewrite H. Qed.

(** What [isFormValid] does is decided by the length it reads: it throws
    and leaves the store alone, or accepts and leaves the store alone, or
    rejects after dispatching [changeCustomerName( '' )]. *)
Lemma isFormValid_cases (store : Store) :
  (∃ e, isFormValid store = (Throw e, store))
  ∨ isFormValid store = (Normal true, store)
  ∨ isFormValid store = (Normal false, dispatch (changeCustomerName (JString "")) store).
Proof.
  unfold isFormValid.
  destruct (if isNullish _ then _ else _) as [n | e]; [| left; eauto].
  right. destruct (truthy n); simpl; [by left | by right].
Qed.

Lemma isFormValid_string (store : Store) (o : JsObject) (s : string) :
  state store !! "customerName" = Some (JObject o) →
  o !! "value" = Some (JString s) →
  isFormValid store =
    if (String.length s =? 0)%nat
    then (Normal false, dispatch (changeCustomerName (JString "")) store)
    else (Normal true, store).
Proof.
  intros Hc Hv. unfold isFormValid, getState.
  rewrite (getCustomerName_object _ _ Hc). simpl.
  unfold field. rewrite Hv. simpl.
  by destruct (String.length s).
Qed.

(** Once the field has been touched by [isFormValid], the next call rejects
    again. *)
Lemma isFormValid_after_touch (store : Store) :
  isFormValid (dispatch (changeCustomerName (JString "")) store)
  = (Normal false,
     dispatch (changeCustomerName (JString "")) (dispatch (changeCustomerName (JString "")) store)).
Proof.
  apply (isFormValid_string _ {[ "value" := JString ""; "isTouched" := JBool true ]} "").
  - simpl. rewrite reducer_set. by rewrite lookup_insert_eq.
  - by rewrite lookup_insert_eq.
Qed.

Lemma isFormValid_again (store : Store) :
  fst (isFormValid (snd (isFormValid store))) = fst (isFormValid store).
Proof.
  destruct (isFormValid_cases store) as [[e H] | [H | H]]; rewrite H; simpl.
  - by rewrite H.
  - by rewrite H.
  - by rewrite isFormValid_after_touch.
Qed.

(** On every state the store can reach, [isTouched] is a boolean. *)
Lemma isTouched_reachable (actions : list Action) :
  ∃ b, isTouched (getState (dispatchAll actions createAlipayPaymentMethodStore)) = JBool b.
Proof.
  induction actions as [| a actions IH] using rev_ind; [by exists false |].
  rewrite dispatchAll_app. simpl. unfold getState in *. simpl.
  destruct (reducer_cases (state (dispatchAll actions createAlipayPaymentMethodStore)) a)
    as [-> | ->]; [done |].
  exists true. unfold isTouched, getCustomerName. rewrite field_insert_eq.
  apply formField_isTouched.
Qed.

Lemma getCustomerName_initial :
  getCustomerName (getState createAlipayPaymentMethodStore) = formField (JString "") false.
Proof. reflexivity. Qed.

Lemma isTouched_initial : isTouched (getState createAlipayPaymentMethodStore) = JBool false.
Proof. reflexivity. Qed.

(** C4. Round trip: whatever the store held, after the action
    [changeCustomerName( x )] is dispatched with a string [x],
    [getCustomerName] of the new state is a field whose [value] is [x] and
    whose [isTouched] is [true]. *)
Theorem changeCustomerName_roundtrip (x : string) (store : Store) :
  let state' := getState (dispatch (changeCustomerName (JString x)) store) in
  getCustomerName state' = formField (JString x) true
  ∧ customerNameValue state' = JString x
  ∧ isTouched state' = JBool true.
Proof.
  unfold customerNameValue, isTouched, getState. simpl. rewrite getCustomerName_set.
  split; [done | split; [apply formField_value | apply formField_isTouched]].
Qed.

(** C5. Monotonicity of [isTouched]: starting from the store as registered,
    whose field is [{ value: '', isTouched: false }], if [isTouched] is
    [true] after some actions then it is still [true] after any further
    actions, whatever their types and payloads. *)
Theorem isTouched_monotone (before after : list Action) :
  isTouched (getState (dispatchAll before createAlipayPaymentMethodStore)) = JBool true →
  isTouched (getState (dispatchAll (before ++ after) createAlipayPaymentMethodStore)) = JBool true.
Proof.
  intros Ht. rewrite dispatchAll_app. by apply isTouched_dispatchAll.
Qed.

Lemma isTouched_monotone_witness :
  isTouched (getState (dispatchAll
    ([changeCustomerName (JString "Jane")]
     ++ [ {| type := "@@OTHER"; payload := JNull |}; changeCustomerName (JString "") ])
    createAlipayPaymentMethodStore)) = JBool true.
Proof.
  apply (isTouched_monotone [changeCustomerName (JString "Jane")]).
  reflexivity.
Defined.

(** C6, as the code has it: on a state without a [customerName] property
    [getCustomerName] returns the empty string. *)
Theorem getCustomerName_uninitialised (state : JsObject) :
  state !! "customerName" = None → getCustomerName state = JString "".
Proof. apply getCustomerName_missing. Qed.

Lemma getCustomerName_uninitialised_witness : getCustomerName ∅ = JString "".
Proof. apply getCustomerName_uninitialised. reflexivity. Defined.

(** C6, as stated, fails on the empty state: it has no [customerName], and
    the selector returns [''] there, not the default field object. *)
Lemma getCustomerName_uninitialised_not_default :
  (∅ : JsObject) !! "customerName" = None
  ∧ getCustomerName ∅ ≠ formField (JString "") false.
Proof. split; [reflexivity | discriminate]. Qed.

(** C10. Frame: an action whose type is not ['CUSTOMER_NAME_SET'] leaves
    every state as it is. *)
Theorem reducer_frame (state : JsObject) (action : Action) :
  type action ≠ "CUSTOMER_NAME_SET" → reducer (Some state) action = state.
Proof. apply reducer_other. Qed.

Lemma reducer_frame_witness :
  reducer (Some defaultState) {| type := "CUSTOMER_NAME_RESET"; payload := JString "x" |}
  = defaultState.
Proof. apply reducer_frame. simpl. discriminate. Defined.

(** C2, as the code has it: on a store whose field holds a string,
    [isFormValid] tests the length of the value as it is, untrimmed. When
    it is zero the call dispatches [changeCustomerName( '' )], after which
    the field holds the same value with [isTouched] true, and returns
    [false]; otherwise it dispatches nothing and returns [true]. *)
Theorem isFormValid_untrimmed (store : Store) (o : JsObject) (s : string) :
  state store !! "customerName" = Some (JObject o) →
  o !! "value" = Some (JString s) →
  (String.length s = 0 →
     isFormValid store = (Normal false, dispatch (changeCustomerName (JString "")) store)
     ∧ getCustomerName (getState (dispatch (changeCustomerName (JString "")) store))
       = formField (JString s) true)
  ∧ (String.length s ≠ 0 → isFormValid store = (Normal true, store)).
Proof.
  intros Hc Hv. rewrite (isFormValid_string store o s Hc Hv). split.
  - intros Hl. rewrite Hl. split; [done |].
    destruct s; [| done]. unfold getState. simpl. apply getCustomerName_set.
  - intros Hl. by destruct (String.length s).
Qed.

Lemma isFormValid_untrimmed_witness :
  isFormValid (storeWith (formField (JString "") false))
  = (Normal false, dispatch (changeCustomerName (JString "")) (storeWith (formField (JString "") false)))
  ∧ isFormValid (storeWith (formField (JString "Jane Doe") true))
    = (Normal true, storeWith (formField (JString "Jane Doe") true)).
Proof.
  split.
  - apply (isFormValid_untrimmed (storeWith (formField (JString "") false))
             {[ "value" := JString ""; "isTouched" := JBool false ]} "");
      reflexivity.
  - apply (isFormValid_untrimmed (storeWith (formField (JString "Jane Doe") true))
             {[ "value" := JString "Jane Doe"; "isTouched" := JBool true ]} "Jane Doe");
      [reflexivity | reflexivity | simpl; lia].
Defined.

(** C2, as stated, fails on a value of one space: trimmed it is empty, yet
    [isFormValid] returns [true] and dispatches nothing. *)
Lemma isFormValid_whitespace_accepted :
  let store := storeWith (formField (JString " ") true) in
  customerNameValue (getState store) = JString " "
  ∧ String.length (spec_trim " ") = 0
  ∧ isFormValid store = (Normal true, store).
Proof. repeat split. Qed.

(** C7. Idempotence: however many times [isFormValid] is called in a row,
    every call completes as the first one does (the same boolean, or the
    same exception). *)
Theorem isFormValid_idempotent (n : nat) (store : Store) :
  fst (isFormValidRepeatedly n store) = replicate n (fst (isFormValid store)).
Proof.
  revert store. induction n as [| n IH]; intros store; [done |].
  simpl. pose proof (isFormValid_again store) as Hagain.
  destruct (isFormValid store) as [c store1] eqn:E1. simpl in *.
  specialize (IH store1).
  destruct (isFormValidRepeatedly n store1) as [cs store2]. simpl in *.
  by rewrite IH, Hagain.
Qed.

Lemma isFormValid_true_store (s s' : Store) :
  isFormValid s = (Normal true, s') → s' = s.
Proof.
  intros H. destruct (isFormValid_cases s) as [[e He] | [Ht | Hf]]; congruence.
Qed.

(** ** Properties of the submission *)

Section Submission.

Context {Stripe StripeConfiguration : Type} (__ : string → string).

Implicit Types (w : World Stripe StripeConfiguration) (r : Render Stripe StripeConfiguration).

(** The click when the form is valid: the four calls, in this order. *)
Lemma onClick_valid r w :
  isFormValid (store w) = (Normal true, store w) →
  onClick r w =
    (Normal true,
     {| store := store w;
        transactionStatus := Pending;
        effects := effects w ++
          [ Debug [JString "submitting alipay payment"];
            SetTransactionPending;
            OnEvent redirectBegin;
            SubmitTransaction {| stripe := props_stripe r;
                                 name := optChain (hook_customerName r) "value";
                                 items := hook_items r;
                                 total := hook_total r;
                                 stripeConfiguration := props_stripeConfiguration r |} ] |}).
Proof.
  intros Hv. unfold onClick, mbind, M_bind, onStore. rewrite Hv. simpl.
  by rewrite <- !app_assoc.
Qed.

(** The click when the form is not valid: nothing but the dispatch that
    [isFormValid] made. *)
Lemma onClick_invalid r w :
  isFormValid (store w) = (Normal false, dispatch (changeCustomerName (JString "")) (store w)) →
  onClick r w =
    (Normal false,
     {| store := dispatch (changeCustomerName (JString "")) (store w);
        transactionStatus := transactionStatus w;
        effects := effects w |}).
Proof.
  intros Hv. unfold onClick, mbind, M_bind, onStore. by rewrite Hv.
Qed.

(** The [.then] callback on a response without a usable redirect URL. *)
Lemma onFulfilled_error (stripeResponse : JsValue) w :
  truthy (optChain stripeResponse "redirect_url") = false →
  onFulfilled __ stripeResponse w =
    (Normal (),
     {| store := store w;
        transactionStatus := Error (JString (__ processingError));
        effects := effects w ++ [SetTransactionError (JString (__ processingError))] |}).
Proof. intros Hu. unfold onFulfilled. by rewrite Hu. Qed.

(** The [.then] callback on a response with a redirect URL. *)
Lemma onFulfilled_redirect (stripeResponse : JsValue) w :
  truthy (optChain stripeResponse "redirect_url") = true →
  onFulfilled __ stripeResponse w =
    (Normal (),
     {| store := store w;
        transactionStatus := Redirecting (optChain stripeResponse "redirect_url");
        effects := effects w ++
          [ Debug [JString "alipay transaction requires redirect";
                   optChain stripeResponse "redirect_url"];
            SetTransactionRedirecting (optChain stripeResponse "redirect_url") ] |}).
Proof.
  intros Hu. unfold onFulfilled. rewrite Hu. simpl.
  unfold optChain, getProp in *. destruct (isNullish stripeResponse); [done |].
  unfold mbind, M_bind, liftC. simpl.
  unfold setTransactionRedirecting, mbind, M_bind. simpl. by rewrite <- app_assoc.
Qed.

(** The [.catch] callback on a reason that has properties. *)
Lemma onRejected_error (error : JsValue) w :
  isNullish error = false →
  onRejected error w =
    (Normal (),
     {| store := store w;
        transactionStatus := Error (readProp error "message");
        effects := effects w ++ [SetTransactionError (readProp error "message")] |}).
Proof. intros Hn. unfold onRejected, getProp. by rewrite Hn. Qed.

(** A reason that is [undefined] or [null] has no [message] to read: the
    [.catch] callback throws and the status stays as it was. *)
Lemma onRejected_nullish (error : JsValue) w :
  isNullish error = true → onRejected error w = (Throw typeError, w).
Proof. intros Hn. unfold onRejected, getProp. by rewrite Hn. Qed.

(** The [.then] callback never throws, so [.catch] only ever sees the
    processor's own rejections. *)
Lemma onFulfilled_normal (stripeResponse : JsValue) w :
  fst (onFulfilled __ stripeResponse w) = Normal ().
Proof.
  destruct (truthy (optChain stripeResponse "redirect_url")) eqn:Hu.
  - by rewrite onFulfilled_redirect.
  - by rewrite onFulfilled_error.
Qed.

(** C8. Ordering: on a click whose [isFormValid] returns [true], the
    handler marks the transaction pending, then emits the
    [REDIRECT_TRANSACTION_BEGIN] event, and only then calls
    [submitTransaction]: these are, in this order, the calls it adds to the
    trace (after its debug line), and the status it leaves is pending. *)
Theorem pending_and_event_precede_processor r w :
  fst (isFormValid (store w)) = Normal true →
  onClick r w =
    (Normal true,
     {| store := store w;
        transactionStatus := Pending;
        effects := effects w ++
          [ Debug [JString "submitting alipay payment"];
            SetTransactionPending;
            OnEvent redirectBegin;
            SubmitTransaction {| stripe := props_stripe r;
                                 name := optChain (hook_customerName r) "value";
                                 items := hook_items r;
                                 total := hook_total r;
                                 stripeConfiguration := props_stripeConfiguration r |} ] |}).
Proof.
  intros Hv. apply onClick_valid.
  destruct (isFormValid (store w)) as [c s'] eqn:E. simpl in Hv. subst c.
  by rewrite (isFormValid_true_store _ _ E).
Qed.

(** C3. On a store whose customer name is the empty string, pressing
    submit leaves the field with [isTouched] true and the same empty value,
    and calls nothing: the transaction status and the trace of calls are as
    before, so there is no pending transition, no event and no
    [submitTransaction], and no settlement is ever consumed. *)
Theorem submit_empty_name r w (o : JsObject) :
  state (store w) !! "customerName" = Some (JObject o) →
  o !! "value" = Some (JString "") →
  let w' := snd (onClick r w) in
  fst (onClick r w) = Normal false
  ∧ getCustomerName (getState (store w')) = formField (JString "") true
  ∧ transactionStatus w' = transactionStatus w
  ∧ effects w' = effects w
  ∧ ∀ outcome, submission __ r outcome w = (Normal (), w').
Proof.
  intros Hc Hv.
  pose proof (isFormValid_string (store w) o "" Hc Hv) as Hf. simpl in Hf.
  pose proof (onClick_invalid r w Hf) as Hclick.
  simpl. rewrite Hclick. simpl. repeat split.
  - unfold getState. simpl. apply getCustomerName_set.
  - intros outcome. unfold submission, mbind, M_bind. by rewrite Hclick.
Qed.

(** C1, as the code has it. In a submission whose click has called the
    processor: when the promise resolves with a response whose
    [redirect_url] is missing or falsy (the empty string, say), the status
    becomes error with the localized fixed message and no redirecting call
    is made; when it resolves with a truthy [redirect_url], the status
    becomes redirecting with that URL; when it rejects with a reason other
    than [undefined] and [null], the status becomes error with the reason's
    [message], untouched. *)
Theorem submission_settled r w w1 :
  onClick r w = (Normal true, w1) →
  (∀ stripeResponse,
     truthy (optChain stripeResponse "redirect_url") = false →
     submission __ r (Fulfilled stripeResponse) w =
       (Normal (),
        {| store := store w1;
           transactionStatus := Error (JString (__ processingError));
           effects := effects w1 ++ [SetTransactionError (JString (__ processingError))] |}))
  ∧ (∀ stripeResponse,
       truthy (optChain stripeResponse "redirect_url") = true →
       submission __ r (Fulfilled stripeResponse) w =
         (Normal (),
          {| store := store w1;
             transactionStatus := Redirecting (optChain stripeResponse "redirect_url");
             effects := effects w1 ++
               [ Debug [JString "alipay transaction requires redirect";
                        optChain stripeResponse "redirect_url"];
                 SetTransactionRedirecting (optChain stripeResponse "redirect_url") ] |}))
  ∧ (∀ error,
       isNullish error = false →
       submission __ r (Rejected error) w =
         (Normal (),
          {| store := store w1;
             transactionStatus := Error (readProp error "message");
             effects := effects w1 ++ [SetTransactionError (readProp error "message")] |})).
Proof.
  intros Hclick. unfold submission, mbind, M_bind. rewrite Hclick.
  split; [| split].
  - intros resp Hu. unfold settle. by rewrite (onFulfilled_error resp w1 Hu).
  - intros resp Hu. unfold settle. by rewrite (onFulfilled_redirect resp w1 Hu).
  - intros error Hn. unfold settle. by apply onRejected_error.
Qed.

End Submission.

Lemma pending_and_event_precede_processor_witness :
  effects (snd (onClick janeRender janeWorld)) =
    [ Debug [JString "submitting alipay payment"];
      SetTransactionPending;
      OnEvent redirectBegin;
      SubmitTransaction {| stripe := tt; name := JString "Jane Doe"; items := [tenDollars];
                           total := tenDollars; stripeConfiguration := tt |} ].
Proof.
  rewrite (pending_and_event_precede_processor janeRender janeWorld); reflexivity.
Defined.

Lemma submit_empty_name_witness :
  fst (onClick freshRender freshWorld) = Normal false
  ∧ getCustomerName (getState (store (snd (onClick freshRender freshWorld))))
    = formField (JString "") true
  ∧ effects (snd (onClick freshRender freshWorld)) = [].
Proof.
  destruct (submit_empty_name (λ s, s) freshRender freshWorld
              {[ "value" := JString ""; "isTouched" := JBool false ]})
    as (Hret & Hfield & _ & Heffects & _); [reflexivity | reflexivity |].
  exact (conj Hret (conj Hfield Heffects)).
Defined.

Lemma submission_settled_witness :
  transactionStatus
    (snd (submission (λ s, s) janeRender (Fulfilled (JObject ∅)) janeWorld))
  = Error (JString processingError)
  ∧ transactionStatus
      (snd (submission (λ s, s) janeRender
              (Fulfilled (JObject {[ "redirect_url" := JString "https://pay.example/x" ]}))
              janeWorld))
    = Redirecting (JString "https://pay.example/x")
  ∧ transactionStatus
      (snd (submission (λ s, s) janeRender
              (Rejected (JObject {[ "message" := JString "card declined" ]})) janeWorld))
    = Error (JString "card declined").
Proof.
  destruct (submission_settled (λ s, s) janeRender janeWorld
              (snd (onClick janeRender janeWorld)) eq_refl) as (Herr & Hurl & Hrej).
  split; [| split].
  - rewrite (Herr (JObject ∅)); reflexivity.
  - rewrite (Hurl (JObject {[ "redirect_url" := JString "https://pay.example/x" ]})); reflexivity.
  - rewrite (Hrej (JObject {[ "message" := JString "card declined" ]})); reflexivity.
Defined.

(** C1, as stated, fails on a response whose [redirect_url] is present
    and empty: the processor was called and resolved, the response has the
    field, and the status becomes error instead of redirecting with that
    value. *)
Lemma empty_redirect_url_is_error :
  let stripeResponse := JObject {[ "redirect_url" := JString "" ]} in
  let w' := snd (submission (λ s, s) janeRender (Fulfilled stripeResponse) janeWorld) in
  fst (onClick janeRender janeWorld) = Normal true
  ∧ ({[ "redirect_url" := JString "" ]} : JsObject) !! "redirect_url" = Some (JString "")
  ∧ transactionStatus w' = Error (JString processingError)
  ∧ transactionStatus w' ≠ Redirecting (JString "").
Proof. repeat split. discriminate. Qed.

(** ** The label of the button *)

Section ButtonLabel.

Context (__ : string → string) (sprintf : string → string → string)
        (renderDisplayValueMarkdown : string → string).

(** C9. The content of the submit button is a three-way selection on the
    form status: the processing label when it is ['submitting'], the pay
    label made from the formatted total when it is ['ready'], the
    please-wait label for every other status. *)
Theorem ButtonContents_three_way (formStatus : string) (total : LineItem) :
  let contents := ButtonContents __ sprintf renderDisplayValueMarkdown formStatus total in
  (formStatus = "submitting" → contents = __ "Processing…")
  ∧ (formStatus = "ready" →
       contents = sprintf (__ "Pay %s") (renderDisplayValueMarkdown (displayValue (amount total))))
  ∧ (formStatus ≠ "submitting" → formStatus ≠ "ready" → contents = __ "Please wait…").
Proof.
  simpl. unfold ButtonContents. repeat split.
  - by intros ->.
  - by intros ->.
  - intros Hs Hr.
    destruct (String.eqb_spec formStatus "submitting"); [done |].
    by destruct (String.eqb_spec formStatus "ready").
Qed.

End ButtonLabel.

Lemma ButtonContents_three_way_witness :
  ButtonContents (λ s, s) sprintf_s (λ s, s) "submitting" tenDollars = "Processing…"
  ∧ ButtonContents (λ s, s) sprintf_s (λ s, s) "ready" tenDollars = "Pay $10"
  ∧ ButtonContents (λ s, s) sprintf_s (λ s, s) "pending" tenDollars = "Please wait…".
Proof.
  split; [| split].
  - by apply (ButtonContents_three_way (λ s, s) sprintf_s (λ s, s) "submitting" tenDollars).
  - by apply (ButtonContents_three_way (λ s, s) sprintf_s (λ s, s) "ready" tenDollars).
  - by apply (ButtonContents_three_way (λ s, s) sprintf_s (λ s, s) "pending" tenDollars).
Defined.

(** ** Further properties of the store *)

(** The reducer's spread keeps every other property of the state: only
    [customerName] can differ after an action. *)
Theorem reducer_keeps_other_properties (state : JsObject) (action : Action) (k : string) :
  k ≠ "customerName" → reducer (Some state) action !! k = state !! k.
Proof.
  intros Hk. destruct (reducer_cases state action) as [-> | ->]; [done |].
  by rewrite lookup_insert_ne.
Qed.

Lemma reducer_keeps_other_properties_witness :
  reducer (Some (<["coupon" := JString "SAVE10"]> defaultState))
          (changeCustomerName (JString "Jane")) !! "coupon"
  = Some (JString "SAVE10").
Proof.
  rewrite reducer_keeps_other_properties; [reflexivity | discriminate].
Defined.

(** The last name set wins: setting a name and then another leaves the
    state that setting the second alone leaves. In particular setting the
    same name twice is setting it once. *)
Theorem reducer_last_write_wins (state : JsObject) (x y : JsValue) :
  reducer (Some (reducer (Some state) (changeCustomerName x))) (changeCustomerName y)
  = reducer (Some state) (changeCustomerName y).
Proof. rewrite !reducer_set. apply insert_insert_eq. Qed.

(** [getCustomerName] never returns [undefined] or [null]: it returns the
    state's [customerName] when that is truthy and [''] otherwise, so the
    optional chains its callers put on the result never short-circuit. *)
Theorem getCustomerName_never_nullish (state : JsObject) :
  isNullish (getCustomerName state) = false
  ∧ (getCustomerName state = JString ""
     ∨ (getCustomerName state = field state "customerName"
        ∧ truthy (field state "customerName") = true)).
Proof.
  unfold getCustomerName, js_or.
  destruct (truthy (field state "customerName")) eqn:Ht.
  - split; [by destruct (field state "customerName") | by right].
  - split; [done | by left].
Qed.

(** [isFormValid] throws exactly when the [value] it reads is [undefined]
    or [null], and it then leaves the store as it was. *)
Theorem isFormValid_throws_iff (store : Store) :
  (∃ e, fst (isFormValid store) = Throw e)
  ↔ isNullish (customerNameValue (getState store)) = true.
Proof.
  destruct (getCustomerName_never_nullish (getState store)) as [Hn _].
  unfold isFormValid, customerNameValue, optChain. rewrite Hn.
  unfold getProp. rewrite Hn. simpl.
  destruct (isNullish (readProp _ "value")) eqn:Hv; simpl.
  - split; [done | eauto].
  - split; [| done]. intros [e He].
    by destruct (negb (truthy _)).
Qed.

(** On a state without [customerName] the selector's [''] has no
    [value], so [isFormValid] throws a TypeError and dispatches nothing. *)
Theorem isFormValid_uninitialised_throws (store : Store) :
  state store !! "customerName" = None →
  isFormValid store = (Throw typeError, store).
Proof.
  intros Hc. unfold isFormValid, getState.
  by rewrite (getCustomerName_missing _ Hc).
Qed.

Lemma isFormValid_uninitialised_throws_witness :
  isFormValid {| state := ∅; dispatched := [] |}
  = (Throw typeError, {| state := ∅; dispatched := [] |}).
Proof. apply isFormValid_uninitialised_throws. reflexivity. Defined.

Lemma dispatchAll_snoc (actions : list Action) (a : Action) (store : Store) :
  dispatchAll (actions ++ [a]) store = dispatch a (dispatchAll actions store).
Proof. by rewrite dispatchAll_app. Qed.

(** Invariant of the store under the form's own actions: the field is
    always an object with a string [value] and a boolean [isTouched], and an
    untouched field is empty. *)
Theorem reachable_field (actions : list Action) :
  Forall fromTheForm actions →
  ∃ (s : string) (b : bool),
    getCustomerName (getState (dispatchAll actions createAlipayPaymentMethodStore))
    = formField (JString s) b
    ∧ (b = false → s = "").
Proof.
  induction actions as [| a actions IH] using rev_ind; intros Hall.
  - by exists "", false.
  - rewrite Forall_app, Forall_singleton in Hall. destruct Hall as [Hall Ha].
    destruct (IH Hall) as (s & b & Hfield & Hempty).
    rewrite dispatchAll_snoc. unfold getState in *. simpl.
    unfold reducer. simpl.
    destruct (String.eqb_spec (type a) "CUSTOMER_NAME_SET") as [Ht | Ht].
    + destruct (Ha Ht) as [s' ->]. exists s', true. split; [| done].
      unfold getCustomerName. by rewrite field_insert_eq.
    + by exists s, b.
Qed.

Lemma reachable_field_witness :
  ∃ (s : string) (b : bool),
    getCustomerName (getState (dispatchAll
      [changeCustomerName (JString "Jane"); {| type := "@@OTHER"; payload := JNull |}]
      createAlipayPaymentMethodStore))
    = formField (JString s) b
    ∧ (b = false → s = "").
Proof.
  apply reachable_field. repeat constructor.
  - intros _. by exists "Jane".
  - intros Ht. discriminate Ht.
Defined.

Lemma isFormValid_formField (store : Store) (s : string) (b : bool) :
  getCustomerName (getState store) = formField (JString s) b →
  isFormValid store =
    if (String.length s =? 0)%nat
    then (Normal false, dispatch (changeCustomerName (JString "")) store)
    else (Normal true, store).
Proof.
  intros Hf. unfold isFormValid. rewrite Hf. simpl.
  unfold field. rewrite lookup_insert_eq. simpl.
  by destruct (String.length s).
Qed.

(** On every store the form's own actions can produce, [isFormValid]
    returns and does not throw, and it returns [true] exactly when the name
    the field shows is not empty. *)
Theorem isFormValid_reachable (actions : list Action) :
  Forall fromTheForm actions →
  let store := dispatchAll actions createAlipayPaymentMethodStore in
  ∃ s : string,
    customerNameValue (getState store) = JString s
    ∧ fst (isFormValid store) = Normal (negb (String.length s =? 0)%nat).
Proof.
  intros Hall. simpl. destruct (reachable_field actions Hall) as (s & b & Hfield & _).
  exists s. split.
  - unfold customerNameValue. rewrite Hfield. apply formField_value.
  - rewrite (isFormValid_formField _ s b Hfield). by destruct (String.length s).
Qed.

Lemma isFormValid_reachable_witness :
  ∃ s : string,
    customerNameValue (getState (dispatchAll [changeCustomerName (JString "Jane")]
                                   createAlipayPaymentMethodStore)) = JString s
    ∧ fst (isFormValid (dispatchAll [changeCustomerName (JString "Jane")]
                          createAlipayPaymentMethodStore))
      = Normal (negb (String.length s =? 0)%nat).
Proof.
  apply (isFormValid_reachable [changeCustomerName (JString "Jane")]).
  repeat constructor. intros _. by exists "Jane".
Defined.

(** ** Properties of the field *)

Lemma AlipayFields_formField (formStatus : string) (s : string) (b : bool) :
  AlipayFields formStatus (formField (JString s) b)
  = Normal {| prop_value := JString s;
              prop_isError := JBool (b && (String.length s =? 0)%nat);
              prop_disabled := negb (String.eqb formStatus "ready") |}.
Proof.
  unfold AlipayFields. rewrite formField_value, formField_isTouched.
  unfold formField, getProp, readProp, field. simpl. rewrite lookup_insert_eq. simpl.
  destruct b; simpl; [| done]. by destruct (String.length s).
Qed.

(** Whatever the store holds, when [isFormValid] returns [false] the field
    rendered from the store it leaves is empty and in its error state. *)
Theorem rejected_form_shows_error (store : Store) (formStatus : string) :
  fst (isFormValid store) = Normal false →
  AlipayFields formStatus (getCustomerName (getState (snd (isFormValid store))))
  = Normal {| prop_value := JString "";
              prop_isError := JBool true;
              prop_disabled := negb (String.eqb formStatus "ready") |}.
Proof.
  intros Hf. destruct (isFormValid_cases store) as [[e H] | [H | H]];
    rewrite H in Hf |- *; simpl in *; try discriminate.
  unfold getState. simpl. rewrite getCustomerName_set.
  apply AlipayFields_formField.
Qed.

Lemma rejected_form_shows_error_witness :
  AlipayFields "ready"
    (getCustomerName (getState (snd (isFormValid createAlipayPaymentMethodStore))))
  = Normal {| prop_value := JString ""; prop_isError := JBool true; prop_disabled := false |}.
Proof.
  apply (rejected_form_shows_error createAlipayPaymentMethodStore "ready"). reflexivity.
Defined.

(** On every store the form's own actions can produce, the field renders
    without throwing, shows the stored name, and is in its error state
    exactly when the name is empty and has been touched. *)
Theorem AlipayFields_reachable (actions : list Action) (formStatus : string) :
  Forall fromTheForm actions →
  let state := getState (dispatchAll actions createAlipayPaymentMethodStore) in
  ∃ (s : string) (b : bool),
    customerNameValue state = JString s
    ∧ isTouched state = JBool b
    ∧ AlipayFields formStatus (getCustomerName state)
      = Normal {| prop_value := JString s;
                  prop_isError := JBool (b && (String.length s =? 0)%nat);
                  prop_disabled := negb (String.eqb formStatus "ready") |}.
Proof.
  intros Hall. simpl. destruct (reachable_field actions Hall) as (s & b & Hfield & _).
  exists s, b. unfold customerNameValue, isTouched. rewrite Hfield.
  split; [apply formField_value |]. split; [apply formField_isTouched |].
  apply AlipayFields_formField.
Qed.

Lemma AlipayFields_reachable_witness :
  ∃ (s : string) (b : bool),
    customerNameValue (getState janeStore) = JString s
    ∧ isTouched (getState janeStore) = JBool b
    ∧ AlipayFields "submitting" (getCustomerName (getState janeStore))
      = Normal {| prop_value := JString s;
                  prop_isError := JBool (b && (String.length s =? 0)%nat);
                  prop_disabled := negb (String.eqb "submitting" "ready") |}.
Proof.
  apply (AlipayFields_reachable [changeCustomerName (JString "Jane Doe")] "submitting").
  repeat constructor. intros _. by exists "Jane Doe".
Defined.

(** What is typed is what is shown: after a change event with the text
    [x], from any store, the field shows [x], the summary line shows [x], and
    the field is in its error state exactly when [x] is empty. *)
Theorem typed_text_is_shown (store : Store) (x : string) (formStatus : string) :
  let customerName := getCustomerName (getState (onChange (JString x) store)) in
  AlipayFields formStatus customerName
  = Normal {| prop_value := JString x;
              prop_isError := JBool (String.length x =? 0)%nat;
              prop_disabled := negb (String.eqb formStatus "ready") |}
  ∧ AlipaySummary customerName = JString x.
Proof.
  simpl. unfold onChange, getState. simpl. rewrite getCustomerName_set.
  split; [apply AlipayFields_formField | apply formField_value].
Qed.

(** On a state without [customerName], where [isFormValid] throws, the
    field still renders: empty, not in error. *)
Theorem AlipayFields_uninitialised (state : JsObject) (formStatus : string) :
  state !! "customerName" = None →
  AlipayFields formStatus (getCustomerName state)
  = Normal {| prop_value := JString "";
              prop_isError := JUndefined;
              prop_disabled := negb (String.eqb formStatus "ready") |}.
Proof. intros Hc. by rewrite (getCustomerName_missing _ Hc). Qed.

Lemma AlipayFields_uninitialised_witness :
  AlipayFields "ready" (getCustomerName ∅)
  = Normal {| prop_value := JString ""; prop_isError := JUndefined; prop_disabled := false |}.
Proof. apply (AlipayFields_uninitialised ∅ "ready"). reflexivity. Defined.

(** The input is always controlled: whenever the field renders, from any
    snapshot at all, the value it passes down is neither [undefined] nor
    [null]. *)
Theorem AlipayFields_value_never_nullish
    (formStatus : string) (customerName : JsValue) (props : FieldProps) :
  AlipayFields formStatus customerName = Normal props →
  isNullish (prop_value props) = false.
Proof.
  unfold AlipayFields. intros H.
  destruct (js_and _ _) as [isError | e]; simpl in H; [| discriminate].
  injection H as <-. simpl. unfold js_coalesce.
  by destruct (isNullish (optChain customerName "value")) eqn:Hn.
Qed.

Lemma AlipayFields_value_never_nullish_witness :
  isNullish (prop_value {| prop_value := JString ""; prop_isError := JUndefined;
                           prop_disabled := true |}) = false.
Proof.
  apply (AlipayFields_value_never_nullish "pending" (JObject ∅)). reflexivity.
Defined.

(** ** Further properties of the submission *)

Section SubmissionFlow.

Context {Stripe StripeConfiguration : Type} (__ : string → string).

Implicit Types (w : World Stripe StripeConfiguration) (r : Render Stripe StripeConfiguration).

Lemma processorCalls_app (xs ys : list (Effect Stripe StripeConfiguration)) :
  processorCalls (xs ++ ys) = (processorCalls xs ++ processorCalls ys)%list.
Proof. apply omap_app. Qed.



(** With a name that is not empty and a render that has seen it, the
    click calls the processor exactly once, with that name. *)
Theorem valid_name_submitted_once r w (s : string) (b : bool) :
  getCustomerName (getState (store w)) = formField (JString s) b →
  hook_customerName r = getCustomerName (getState (store w)) →
  s ≠ "" →
  let w' := snd (onClick r w) in
  processorCalls (effects w') = (processorCalls (effects w) ++ [argsOf r])%list
  ∧ name (argsOf r) = JString s.
Proof.
  intros Hfield Hsnap Hs. simpl.
  assert (isFormValid (store w) = (Normal true, store w)) as Hvalid.
  { rewrite (isFormValid_formField _ s b Hfield). by destruct s. }
  rewrite (onClick_valid r w Hvalid). simpl. rewrite processorCalls_app. split; [done |].
  rewrite Hsnap, Hfield. apply formField_value.
Qed.

(** The handler has no guard of its own against a second click: while the
    form stays valid, a second click, though the status is already pending,
    calls the processor a second time. *)
Theorem second_click_submits_again (r1 r2 : Render Stripe StripeConfiguration) w :
  fst (isFormValid (store w)) = Normal true →
  let w1 := snd (onClick r1 w) in
  let w2 := snd (onClick r2 w1) in
  transactionStatus w1 = Pending
  ∧ fst (onClick r2 w1) = Normal true
  ∧ processorCalls (effects w2) = (processorCalls (effects w) ++ [argsOf r1; argsOf r2])%list.
Proof.
  intros Hv. simpl.
  assert (isFormValid (store w) = (Normal true, store w)) as Hvalid.
  { destruct (isFormValid (store w)) as [c s'] eqn:E. simpl in Hv. subst c.
    by rewrite (isFormValid_true_store _ _ E). }
  rewrite (onClick_valid r1 w Hvalid). simpl. split; [done |].
  rewrite onClick_valid by done. simpl. split; [done |].
  rewrite !processorCalls_app. simpl. by rewrite <- app_assoc.
Qed.

(** The settlement never touches the store and never calls the processor;
    it ends in error, or in redirecting with a truthy URL, or, when the
    rejection reason is [undefined] or [null], it throws and changes
    nothing. *)
Theorem settle_outcomes (outcome : Settlement) w :
  let w' := snd (settle __ outcome w) in
  store w' = store w
  ∧ processorCalls (effects w') = processorCalls (effects w)
  ∧ ((∃ message, transactionStatus w' = Error message)
     ∨ (∃ url, transactionStatus w' = Redirecting url ∧ truthy url = true)
     ∨ (∃ error, outcome = Rejected error ∧ isNullish error = true
                 ∧ settle __ outcome w = (Throw typeError, w))).
Proof.
  simpl. destruct outcome as [resp | error]; unfold settle.
  - destruct (truthy (optChain resp "redirect_url")) eqn:Hu.
    + rewrite (onFulfilled_redirect __ resp w Hu). simpl.
      rewrite processorCalls_app. simpl. rewrite app_nil_r.
      split; [done |]. split; [done |]. right. left. eauto.
    + rewrite (onFulfilled_error __ resp w Hu). simpl.
      rewrite processorCalls_app. simpl. rewrite app_nil_r.
      split; [done |]. split; [done |]. left. eauto.
  - destruct (isNullish error) eqn:Hn.
    + rewrite (onRejected_nullish error w Hn). simpl.
      split; [done |]. split; [done |]. right. right. eauto.
    + rewrite (onRejected_error error w Hn). simpl.
      rewrite processorCalls_app. simpl. rewrite app_nil_r.
      split; [done |]. split; [done |]. left. eauto.
Qed.

(** A rejection without a reason leaves the checkout pending: the
    [.catch] callback throws on [error.message] before it can set the error
    status. *)
Theorem rejection_without_reason_stays_pending r w (error : JsValue) :
  fst (isFormValid (store w)) = Normal true →
  isNullish error = true →
  fst (submission __ r (Rejected error) w) = Throw typeError
  ∧ transactionStatus (snd (submission __ r (Rejected error) w)) = Pending.
Proof.
  intros Hv Hn.
  pose proof (pending_and_event_precede_processor r w Hv) as Hclick.
  unfold submission, mbind, M_bind. rewrite Hclick. unfold settle.
  by rewrite onRejected_nullish.
Qed.

End SubmissionFlow.

Lemma valid_name_submitted_once_witness :
  processorCalls (effects (snd (onClick janeRender janeWorld)))
  = (processorCalls (effects janeWorld) ++ [argsOf janeRender])%list
  ∧ name (argsOf janeRender) = JString "Jane Doe".
Proof.
  apply (valid_name_submitted_once janeRender janeWorld "Jane Doe" true);
    [reflexivity | reflexivity | discriminate].
Defined.

Lemma second_click_submits_again_witness :
  processorCalls (effects (snd (onClick janeRender (snd (onClick janeRender janeWorld)))))
  = [argsOf janeRender; argsOf janeRender].
Proof.
  apply (second_click_submits_again janeRender janeRender janeWorld). reflexivity.
Defined.

Lemma rejection_without_reason_stays_pending_witness :
  transactionStatus (snd (submission (λ s, s) janeRender (Rejected JUndefined) janeWorld))
  = Pending.
Proof.
  apply (rejection_without_reason_stays_pending (λ s, s) janeRender janeWorld JUndefined);
    reflexivity.
Defined.

(** ** Properties of the navigation sidebar *)

Module NavSidebarProperties.

Import NavSidebar.

Lemma labels_publish (statuses : list PostStatus) (acc : gmap string string) :
  foldl (λ acc st,
           if String.eqb (status_slug st) "publish" then acc
           else <[status_slug st := status_name st]> acc) acc statuses !! "publish"
  = acc !! "publish".
Proof.
  revert acc. induction statuses as [| st statuses IH]; intros acc; [done |].
  simpl. rewrite IH.
  destruct (String.eqb_spec (status_slug st) "publish") as [Hp | Hp]; [done |].
  by rewrite lookup_insert_ne.
Qed.

Lemma labels_lookup (statuses : list PostStatus) (k : string) :
  k ≠ "publish" →
  foldl (λ (acc : gmap string string) st,
           if String.eqb (status_slug st) "publish" then acc
           else <[status_slug st := status_name st]> acc) ∅ statuses !! k
  = status_name <$> last (List.filter (λ st, String.eqb (status_slug st) k) statuses).
Proof.
  intros Hk. induction statuses as [| st statuses IH] using rev_ind; [done |].
  rewrite foldl_app, List.filter_app. simpl.
  destruct (String.eqb_spec (status_slug st) k) as [Heq | Hne].
  - destruct (String.eqb_spec (status_slug st) "publish") as [Hp | Hp]; [congruence |].
    rewrite Heq, lookup_insert_eq. by rewrite last_snoc.
  - rewrite app_nil_r.
    destruct (String.eqb_spec (status_slug st) "publish") as [Hp | Hp]; [done |].
    by rewrite lookup_insert_ne.
Qed.

(** The labels never hold an entry for ['publish'], whatever the status
    records are, loaded or not. *)
Theorem usePostStatusLabels_no_publish (core : CoreSelectors) :
  usePostStatusLabels core !! "publish" = None.
Proof. unfold usePostStatusLabels. by rewrite (labels_publish _ ∅). Qed.

(** For any other slug, the label is the name of the last status record
    with that slug, and there is none when no record has it (in particular
    while the records are not loaded). *)
Theorem usePostStatusLabels_lookup (core : CoreSelectors) (k : string) :
  k ≠ "publish" →
  usePostStatusLabels core !! k
  = status_name <$>
      last (List.filter (λ st, String.eqb (status_slug st) k) (default [] (getStatuses core))).
Proof. intros Hk. by apply labels_lookup. Qed.

Lemma usePostStatusLabels_lookup_witness :
  usePostStatusLabels
    {| getStatuses := Some [ {| status_name := "Draft"; status_slug := "draft"; show_in_list := true |};
                             {| status_name := "Published"; status_slug := "publish"; show_in_list := true |};
                             {| status_name := "Drafts"; status_slug := "draft"; show_in_list := true |} ];
       getPosts := λ _ _, None;
       getPostType := λ _, None |} !! "draft"
  = Some "Drafts".
Proof. rewrite usePostStatusLabels_lookup; [reflexivity | discriminate]. Defined.

(** The list is empty exactly while the statuses are not loaded; once they
    are, it starts with the post being edited, even when the other posts
    have not arrived, and the other posts follow in the order received. *)
Theorem useNavItems_current_first (core : CoreSelectors) (editor : EditorSelectors) :
  (getStatuses core = None ↔ useNavItems core editor = [])
  ∧ (is_Some (getStatuses core) →
       ∃ rest, useNavItems core editor = currentPost editor :: rest
               ∧ id (currentPost editor) = getCurrentPostId editor
               ∧ ((∀ q, getPosts core (getCurrentPostType editor) q = None) → rest = [])).
Proof.
  unfold useNavItems. destruct (getStatuses core) as [statuses |].
  - split; [split; discriminate |]. intros _. eexists. split; [done |]. split; [done |].
    intros Hq. by rewrite Hq.
  - split; [done |]. by intros [? ?].
Qed.

Lemma useNavItems_current_first_witness :
  ∃ rest,
    useNavItems {| getStatuses := Some []; getPosts := λ _ _, None; getPostType := λ _, None |}
                {| isEditedPostNew := true; getCurrentPostId := 7;
                   getCurrentPostType := "page"; getEditedPostAttribute := λ _, "" |}
    = currentPost {| isEditedPostNew := true; getCurrentPostId := 7;
                     getCurrentPostType := "page"; getEditedPostAttribute := λ _, "" |} :: rest.
Proof.
  destruct (useNavItems_current_first
              {| getStatuses := Some []; getPosts := λ _ _, None; getPostType := λ _, None |}
              {| isEditedPostNew := true; getCurrentPostId := 7;
                 getCurrentPostType := "page"; getEditedPostAttribute := λ _, "" |})
    as [_ H].
  destruct (H (ex_intro _ [] eq_refl)) as (rest & Hrest & _).
  by exists rest.
Defined.

Section Components.

Context (__ : string → string → string)
        (addQueryArgs : string → list (string * string) → string)
        (applyFilters : string → string → string).

(** The title's class and text agree: either the title is marked
    untitled and shows the translated "Untitled", or it is not marked and
    shows the post's own title, which is then not empty. *)
Theorem NavItem_untitled_consistent (item : Post) (selected : bool) (statusLabel : option string) :
  let view := NavItem __ item selected statusLabel in
  (titleClasses view = "wpcom-block-editor-nav-sidebar__title is-untitled"
   ∧ titleText view = __ "Untitled" "full-site-editing"
   ∧ falsy (raw <$> title item) = true)
  ∨ (titleClasses view = "wpcom-block-editor-nav-sidebar__title"
     ∧ (∃ t, title item = Some t ∧ titleText view = raw t ∧ raw t ≠ "")).
Proof.
  simpl. unfold NavItem. simpl. destruct (title item) as [t |]; simpl.
  - destruct (raw t) as [| c rest] eqn:Hraw; simpl.
    + by left.
    + right. split; [done |]. exists t. by rewrite Hraw.
  - by left.
Qed.



End Components.



End NavSidebarProperties.
